(** * EMI calculator relay: a shallow embedding of [emi_calculator.py]

    The module forwards four tool invocations to a REST backend.  Each tool
    builds a dictionary, hands it to [_post], and returns what [_post]
    returns.  The embedding keeps that shape: Python values are an inductive
    type with dictionaries as [gmap string], exceptions are explicit, and the
    one effect of the program -- the call to [requests.post] -- is recorded
    in a log of issued requests. *)

From Stdlib Require Import Floats.PrimFloat.
From stdpp Require Import gmap strings list fin_maps pretty.

Set Warnings "-register-all".

(** ** Python values *)

(** The values that travel through the relay: what a JSON document parses
    to, and what the typed tool arguments are made of. *)
Inductive pyval : Type :=
  | PNone
  | PBool (b : bool)
  | PInt (z : Z)
  | PFloat (f : float)
  | PStr (s : string)
  | PList (l : list pyval)
  | PDict (d : gmap string pyval).

Abbreviation pydict := (gmap string pyval).

(** ** Exceptions and outcomes *)

(** The classes below [requests.exceptions.RequestException] that matter
    here; the handler in [_post] catches the base class, hence all of them. *)
Inductive request_exception_class : Type :=
  | ConnectionError
  | Timeout
  | TooManyRedirects
  | MissingSchema
  | HTTPError
  | InvalidJSONError
  | JSONDecodeError.

Inductive exception : Type :=
  | RequestException (cls : request_exception_class) (msg : string)
  | KeyError (key : string).

(** [str(e)]: the message for a request exception, the quoted key for a
    [KeyError]. *)
Definition str (e : exception) : string :=
  match e with
  | RequestException _ msg => msg
  | KeyError key => "'" +:+ key +:+ "'"
  end.

Inductive outcome (A : Type) : Type :=
  | Returned (a : A)
  | Raised (e : exception).
Arguments Returned {A} a.
Arguments Raised {A} e.

#[global] Instance outcome_ret : MRet outcome := λ A a, Returned a.
#[global] Instance outcome_bind : MBind outcome := λ A B k m,
  match m with
  | Returned a => k a
  | Raised e => Raised e
  end.

(** ** The HTTP boundary *)

(** One call [requests.post(url, json=payload, timeout=t)]. *)
Record request : Type := mk_request {
  req_url : string;
  req_json : pydict;
  req_timeout : Z
}.

(** What the relay reads of a [requests.Response]: the status line, the
    final URL, and the result of calling [.json()] on it (the parsed body,
    or the exception raised when the body is not JSON). *)
Record response : Type := mk_response {
  status_code : Z;
  reason : string;
  response_url : string;
  response_json : outcome pyval
}.

(** [Response.raise_for_status] of the requests library: the message stays
    empty unless the status is 4xx or 5xx, and a non-empty message is
    raised as [HTTPError]. *)
Definition http_error_msg (r : response) : string :=
  if decide (400 ≤ status_code r < 500)%Z then
    pretty (status_code r) +:+ " Client Error: " +:+ reason r
      +:+ " for url: " +:+ response_url r
  else if decide (500 ≤ status_code r < 600)%Z then
    pretty (status_code r) +:+ " Server Error: " +:+ reason r
      +:+ " for url: " +:+ response_url r
  else "".

Definition raise_for_status (r : response) : outcome unit :=
  if decide (http_error_msg r = "") then Returned ()
  else Raised (RequestException HTTPError (http_error_msg r)).

(** ** Module start-up: [load_dotenv()] and [BASE_URL] *)

(** [load_dotenv()] with its default [override=False]: variables of the
    [.env] file are added to the process environment, variables already set
    keep their value.  [dotenv] is empty when there is no [.env] file. *)
Definition load_dotenv (dotenv environ : gmap string string)
  : gmap string string :=
  environ ∪ dotenv.

(** [os.getenv(key, default)]. *)
Definition getenv (environ : gmap string string) (key dflt : string)
  : string :=
  match environ !! key with
  | Some v => v
  | None => dflt
  end.

Definition BASE_URL (dotenv environ : gmap string string) : string :=
  getenv (load_dotenv dotenv environ)
    "EMI_API_BASE_URL" "http://localhost:8000/api".

(** ** The relay monad *)

(** A computation reads the module global [BASE_URL] and the behaviour of
    [requests.post], may raise, and logs every call to [requests.post]. *)
Record context : Type := mk_context {
  ctx_BASE_URL : string;
  ctx_post : request → outcome response
}.

Definition relay (A : Type) : Type := context → outcome A * list request.

#[global] Instance relay_ret : MRet relay := λ A a _, (Returned a, []).
#[global] Instance relay_bind : MBind relay := λ A B k m c,
  match m c with
  | (Returned a, log1) => let '(r, log2) := k a c in (r, log1 ++ log2)
  | (Raised e, log1) => (Raised e, log1)
  end.

Definition lift {A} (o : outcome A) : relay A := λ _, (o, []).

Definition read_BASE_URL : relay string := λ c, (Returned (ctx_BASE_URL c), []).

Definition requests_post (url : string) (json : pydict) (timeout : Z)
  : relay response :=
  λ c, let req := mk_request url json timeout in (ctx_post c req, [req]).

(** [try: body except <filter> as e: handler e]; [handler e = None] means
    the except clause does not match [e], which then propagates. *)
Definition try_except {A} (body : relay A)
    (handler : exception → option (relay A)) : relay A :=
  λ c,
  match body c with
  | (Returned a, log1) => (Returned a, log1)
  | (Raised e, log1) =>
      match handler e with
      | Some h => let '(r, log2) := h c in (r, log1 ++ log2)
      | None => (Raised e, log1)
      end
  end.

(** ** [_post] *)

(** The dictionary returned by the except clause of [_post]. *)
Definition backend_error (details : string) (payload : pydict) : pyval :=
  PDict {[ "error" := PStr "backend_error";
           "details" := PStr details;
           "payload" := PDict payload ]}.

Definition _post (path : string) (payload : pydict) : relay pyval :=
  base ← read_BASE_URL;
  let url := base +:+ path in
  try_except
    (response ← requests_post url payload 10;
     _ ← lift (raise_for_status response);
     lift (response_json response))
    (λ e, match e with
          | RequestException _ _ => Some (mret (backend_error (str e) payload))
          | _ => None
          end).

(** ** The four tools *)

Definition calculate_emi (principal interestRate : float) (tenure : Z)
    (calculation_method : string) : relay pyval :=
  let payload : pydict :=
    {[ "principal" := PFloat principal;
       "annual_rate" := PFloat interestRate;
       "tenure_months" := PInt tenure;
       "calculation_method" := PStr calculation_method ]} in
  _post "/calculate-emi" payload.

Definition calculate_schedule (principal interestRate : float) (tenure : Z)
    (calculation_method : string) : relay pyval :=
  let payload : pydict :=
    {[ "principal" := PFloat principal;
       "annual_rate" := PFloat interestRate;
       "tenure_months" := PInt tenure;
       "calculation_method" := PStr calculation_method ]} in
  _post "/amortization-schedule" payload.

(** [d[key]] and [d.get(key, dflt)] on a dictionary. *)
Definition getitem (d : pydict) (key : string) : outcome pyval :=
  match d !! key with
  | Some v => Returned v
  | None => Raised (KeyError key)
  end.

Definition dict_get (d : pydict) (key : string) (dflt : pyval) : pyval :=
  match d !! key with
  | Some v => v
  | None => dflt
  end.

(** The dictionary display in the loop body of [compare_loans]; its items
    are evaluated top to bottom, so the first missing key is the one
    reported. *)
Definition format_scenario (scenario : pydict) (calculation_method : string)
  : outcome pydict :=
  let name := dict_get scenario "name" PNone in
  principal ← getitem scenario "principal";
  annual_rate ← getitem scenario "interestRate";
  tenure_months ← getitem scenario "tenure";
  let method := dict_get scenario "calculation_method"
                  (PStr calculation_method) in
  mret ({[ "name" := name;
           "principal" := principal;
           "annual_rate" := annual_rate;
           "tenure_months" := tenure_months;
           "calculation_method" := method ]} : pydict).

(** [for scenario in scenarios: formatted_scenarios.append({...})]. *)
Fixpoint for_scenarios (scenarios : list pydict) (calculation_method : string)
    (formatted_scenarios : list pyval) : outcome (list pyval) :=
  match scenarios with
  | [] => Returned formatted_scenarios
  | scenario :: rest =>
      d ← format_scenario scenario calculation_method;
      for_scenarios rest calculation_method (formatted_scenarios ++ [PDict d])
  end.

Definition compare_loans (scenarios : list pydict)
    (calculation_method : string) : relay pyval :=
  formatted_scenarios ← lift (for_scenarios scenarios calculation_method []);
  let payload : pydict := {[ "scenarios" := PList formatted_scenarios ]} in
  _post "/compare-loans" payload.

Definition calculate_with_prepayment (principal interestRate : float)
    (tenure : Z) (prepayment_amount : float) (prepayment_frequency : string)
    (prepayment_start_month : Z) (calculation_method : string)
  : relay pyval :=
  let payload : pydict :=
    {[ "principal" := PFloat principal;
       "annual_rate" := PFloat interestRate;
       "tenure_months" := PInt tenure;
       "prepayment_amount" := PFloat prepayment_amount;
       "prepayment_frequency" := PStr prepayment_frequency;
       "prepayment_start_month" := PInt prepayment_start_month;
       "calculation_method" := PStr calculation_method ]} in
  _post "/calculate-with-prepayment" payload.

(** ** Tool registration and the running server *)

(** An invocation of one of the tools registered with [@mcp.tool()].  The
    trailing argument may be left out by the caller, in which case the
    parameter default ["reducing"] applies. *)
Inductive tool_call : Type :=
  | CalculateEmi (principal interestRate : float) (tenure : Z)
      (calculation_method : option string)
  | CalculateSchedule (principal interestRate : float) (tenure : Z)
      (calculation_method : option string)
  | CompareLoans (scenarios : list pydict)
      (calculation_method : option string)
  | CalculateWithPrepayment (principal interestRate : float) (tenure : Z)
      (prepayment_amount : float) (prepayment_frequency : string)
      (prepayment_start_month : Z) (calculation_method : option string).

Definition call_tool (tc : tool_call) : relay pyval :=
  match tc with
  | CalculateEmi p r t m => calculate_emi p r t (default "reducing" m)
  | CalculateSchedule p r t m =>
      calculate_schedule p r t (default "reducing" m)
  | CompareLoans ss m => compare_loans ss (default "reducing" m)
  | CalculateWithPrepayment p r t a f s m =>
      calculate_with_prepayment p r t a f s (default "reducing" m)
  end.

(** The process after start-up: [BASE_URL] has been read once from the
    environment, and tool calls run against it. *)
Definition server (dotenv environ : gmap string string)
    (post : request → outcome response) : context :=
  mk_context (BASE_URL dotenv environ) post.

(** The routes the module posts to. *)
Definition routes : list string :=
  [ "/calculate-emi"; "/amortization-schedule"; "/compare-loans";
    "/calculate-with-prepayment" ].

(** The keys a scenario of [compare_loans] is subscripted with. *)
Definition required_keys : list string :=
  [ "principal"; "interestRate"; "tenure" ].

(** ** Reading the result of [_post] *)

(** What [_post] returns, read off the answer of [requests.post]. *)
Definition post_answer (payload : pydict) (o : outcome response)
  : outcome pyval :=
  match o with
  | Raised (RequestException _ msg) => Returned (backend_error msg payload)
  | Raised e => Raised e
  | Returned r =>
      if decide (http_error_msg r = "") then
        match response_json r with
        | Returned v => Returned v
        | Raised (RequestException _ msg) =>
            Returned (backend_error msg payload)
        | Raised e => Raised e
        end
      else Returned (backend_error (http_error_msg r) payload)
  end.


(** ** Example backends *)

(** A backend that answers every request with [200 OK] and the body
    [{"emi": 8792.5}]. *)
Definition emi_backend : context :=
  mk_context "http://localhost:8000/api"
    (λ req, Returned (mk_response 200 "OK" (req_url req)
                        (Returned (PDict {[ "emi" := PFloat 8792.5 ]})))).

(** A backend that answers every request with [500]. *)
Definition failing_backend : context :=
  mk_context "http://localhost:8000/api"
    (λ req, Returned (mk_response 500 "Internal Server Error" (req_url req)
                        (Raised (RequestException JSONDecodeError
                                   "Expecting value")))).


(** A backend that answers with [300 Multiple Choices] and a JSON body. *)
Definition multiple_choices_backend : context :=
  mk_context "http://localhost:8000/api"
    (λ req, Returned (mk_response 300 "Multiple Choices" (req_url req)
                        (Returned (PDict {[ "emi" := PFloat 8792.5 ]})))).

(** A backend that answers [200 OK] with a body that is not JSON. *)
Definition html_backend : context :=
  mk_context "http://localhost:8000/api"
    (λ req, Returned (mk_response 200 "OK" (req_url req)
                        (Raised (RequestException JSONDecodeError
                                   "Expecting value: line 1 column 1 (char 0)")))).

(** ** Vocabulary of the further properties *)

(** The except clause of [_post] matches [e]. *)
Definition is_request_exception (e : exception) : Prop :=
  match e with
  | RequestException _ _ => True
  | KeyError _ => False
  end.

(** The requests library raises nothing but request exceptions, from
    [requests.post] and from [Response.json]. *)
Definition raises_request_exceptions_only (c : context) : Prop :=
  ∀ req,
    match ctx_post c req with
    | Raised e => is_request_exception e
    | Returned r =>
        match response_json r with
        | Raised e => is_request_exception e
        | Returned _ => True
        end
    end.

(** The keys the loop body of [compare_loans] looks up in a scenario. *)
Definition read_keys : list string :=
  [ "name"; "principal"; "interestRate"; "tenure"; "calculation_method" ].

(** The first of the subscripted keys that a scenario lacks, in the order in
    which the dictionary display of [compare_loans] evaluates them. *)
Definition first_missing_key (scenario : pydict) : option string :=
  snd <$> list_find (λ k, scenario !! k = None) required_keys.

(** Two invocations are of the same tool. *)
Definition same_tool (tc1 tc2 : tool_call) : bool :=
  match tc1, tc2 with
  | CalculateEmi _ _ _ _, CalculateEmi _ _ _ _ => true
  | CalculateSchedule _ _ _ _, CalculateSchedule _ _ _ _ => true
  | CompareLoans _ _, CompareLoans _ _ => true
  | CalculateWithPrepayment _ _ _ _ _ _ _,
    CalculateWithPrepayment _ _ _ _ _ _ _ => true
  | _, _ => false
  end.

(** * Properties *)

(** ** How computations in the relay monad run *)

Lemma lift_bind_run {A B} (o : outcome A) (k : A → relay B) (c : context) :
  (lift o ≫= k) c =
  match o with
  | Returned a => k a c
  | Raised e => (Raised e, [])
  end.
Proof.
  unfold mbind, relay_bind, lift.
  destruct o as [a|e]; [|done].
  by destruct (k a c).
Qed.

Lemma _post_run (path : string) (payload : pydict) (c : context) :
  let req := mk_request (ctx_BASE_URL c +:+ path) payload 10 in
  _post path payload c = (post_answer payload (ctx_post c req), [req]).
Proof.
  unfold _post, read_BASE_URL, try_except, requests_post, raise_for_status,
    post_answer, lift, mbind, relay_bind, mret, relay_ret; simpl.
  destruct (ctx_post c _) as [r|[cls msg|key]]; simpl; [|done..].
  destruct (decide (http_error_msg r = "")); simpl; [|done].
  by destruct (response_json r) as [v|[cls msg|key]].
Qed.

Lemma _post_log (path : string) (payload : pydict) (c : context) :
  (_post path payload c).2 = [mk_request (ctx_BASE_URL c +:+ path) payload 10].
Proof. by rewrite _post_run. Qed.

(** ** The status message of [raise_for_status] *)



Lemma http_error_msg_empty (r : response) :
  ¬ (400 ≤ status_code r < 600)%Z → http_error_msg r = "".
Proof.
  intros Hst. unfold http_error_msg.
  repeat case_decide; try lia; done.
Qed.

(** ** The loop of [compare_loans] *)

Lemma format_scenario_raises (s : pydict) (cm : string) (e : exception) :
  format_scenario s cm = Raised e →
  ∃ k, k ∈ required_keys ∧ s !! k = None ∧ e = KeyError k.
Proof.
  unfold format_scenario, getitem, mbind, outcome_bind, required_keys.
  destruct (s !! "principal") eqn:Hp; simpl.
  2:{ intros [= <-]. exists "principal". set_solver. }
  destruct (s !! "interestRate") eqn:Hr; simpl.
  2:{ intros [= <-]. exists "interestRate". set_solver. }
  destruct (s !! "tenure") eqn:Ht; simpl.
  2:{ intros [= <-]. exists "tenure". set_solver. }
  discriminate.
Qed.

Lemma format_scenario_returns (s : pydict) (cm : string) :
  (∀ k, k ∈ required_keys → is_Some (s !! k)) →
  ∃ p r t,
    s !! "principal" = Some p ∧ s !! "interestRate" = Some r ∧
    s !! "tenure" = Some t ∧
    format_scenario s cm =
      Returned {[ "name" := dict_get s "name" PNone;
                  "principal" := p;
                  "annual_rate" := r;
                  "tenure_months" := t;
                  "calculation_method" :=
                    dict_get s "calculation_method" (PStr cm) ]}.
Proof.
  intros Hreq.
  destruct (Hreq "principal") as [p Hp]; [set_solver|].
  destruct (Hreq "interestRate") as [r Hr]; [set_solver|].
  destruct (Hreq "tenure") as [t Ht]; [set_solver|].
  exists p, r, t. repeat split; try done.
  unfold format_scenario, getitem. by rewrite Hp, Hr, Ht.
Qed.

Lemma for_scenarios_raises (ss : list pydict) (cm : string)
    (acc : list pyval) (e : exception) :
  for_scenarios ss cm acc = Raised e →
  ∃ s k, s ∈ ss ∧ k ∈ required_keys ∧ s !! k = None ∧ e = KeyError k.
Proof.
  revert acc. induction ss as [|s ss IH]; intros acc; simpl; [done|].
  destruct (format_scenario s cm) as [d|e'] eqn:Hs; simpl.
  - intros (s' & k & Hin & Hrest)%IH. exists s', k.
    split; [by apply elem_of_cons; right | exact Hrest].
  - intros [= <-]. apply format_scenario_raises in Hs as (k & Hrest).
    exists s, k. split; [by apply elem_of_cons; left | exact Hrest].
Qed.

Lemma for_scenarios_missing (ss : list pydict) (cm : string)
    (acc : list pyval) :
  (∃ s k, s ∈ ss ∧ k ∈ required_keys ∧ s !! k = None) →
  ∃ s k, s ∈ ss ∧ k ∈ required_keys ∧ s !! k = None ∧
         for_scenarios ss cm acc = Raised (KeyError k).
Proof.
  intros Hmiss.
  destruct (for_scenarios ss cm acc) as [l|e] eqn:Hrun.
  - exfalso. revert acc l Hrun Hmiss.
    induction ss as [|s ss IH]; intros acc l Hrun (s' & k & Hin & Hk & Hnone).
    + by apply elem_of_nil in Hin.
    + simpl in Hrun.
      destruct (format_scenario s cm) as [d|e'] eqn:Hs; simpl in Hrun; [|done].
      apply elem_of_cons in Hin as [->|Hin].
      * unfold format_scenario, getitem, required_keys in *.
        repeat (apply elem_of_cons in Hk as [->|Hk]);
          [ | | | by apply elem_of_nil in Hk ];
          rewrite ?Hnone in Hs; simpl in Hs;
          repeat (destruct (s !! _); simpl in Hs; try done).
      * eapply IH; [exact Hrun|]. by exists s', k.
  - apply for_scenarios_raises in Hrun as (s & k & ? & ? & ? & ->).
    by exists s, k.
Qed.

Lemma for_scenarios_returns (ss : list pydict) (cm : string)
    (acc : list pyval) :
  (∀ s k, s ∈ ss → k ∈ required_keys → is_Some (s !! k)) →
  ∃ out : list pydict,
    for_scenarios ss cm acc = Returned (acc ++ (PDict <$> out)) ∧
    Forall2 (λ s o, format_scenario s cm = Returned o) ss out.
Proof.
  revert acc. induction ss as [|s ss IH]; intros acc Hreq; simpl.
  - exists []. split; [by rewrite app_nil_r | constructor].
  - destruct (format_scenario_returns s cm) as (p & r & t & _ & _ & _ & Hs).
    { intros k Hk. apply Hreq; [by apply elem_of_cons; left | done]. }
    rewrite Hs. simpl.
    match goal with |- context [ for_scenarios ss cm ?acc' ] =>
      destruct (IH acc') as (out & Hrun & Hall)
    end.
    { intros s' k Hin Hk. apply Hreq; [by apply elem_of_cons; right | done]. }
    eexists (_ :: out). split.
    + rewrite Hrun. by rewrite <- app_assoc.
    + by constructor.
Qed.

Lemma compare_loans_run (ss : list pydict) (cm : string) (c : context) :
  compare_loans ss cm c =
  match for_scenarios ss cm [] with
  | Returned l => _post "/compare-loans" {[ "scenarios" := PList l ]} c
  | Raised e => (Raised e, [])
  end.
Proof. unfold compare_loans. apply lift_bind_run. Qed.

(** Every tool call either stops with a [KeyError] before anything is sent,
    or is one call of [_post] on a route of the module with a payload that
    does not depend on the context. *)
Lemma call_tool_cases (tc : tool_call) :
  (∃ k, ∀ c, call_tool tc c = (Raised (KeyError k), [])) ∨
  (∃ path payload, path ∈ routes ∧ ∀ c, call_tool tc c = _post path payload c).
Proof.
  destruct tc as [p r t m|p r t m|ss m|p r t a f s m]; simpl.
  - right. eexists _, _. split; [|intros c; reflexivity].
    unfold routes. set_solver.
  - right. eexists _, _. split; [|intros c; reflexivity].
    unfold routes. set_solver.
  - destruct (for_scenarios ss (default "reducing" m) []) as [l|e] eqn:Hrun.
    + right. eexists _, _. split; [|intros c; by rewrite compare_loans_run, Hrun].
      unfold routes. set_solver.
    + left.
      destruct (for_scenarios_raises _ _ _ _ Hrun) as (s' & k & _ & _ & _ & ->).
      exists k. intros c. by rewrite compare_loans_run, Hrun.
  - right. eexists _, _. split; [|intros c; reflexivity].
    unfold routes. set_solver.
Qed.

(** ** The payloads of the tools *)

(** C3: for every input, [calculate_emi] issues exactly one request, to
    [BASE_URL] followed by [/calculate-emi], whose body is the dictionary
    with the four keys [principal], [annual_rate] (from [interestRate]),
    [tenure_months] (from [tenure]) and [calculation_method], and no other
    key; a call that leaves the method out uses ["reducing"]. *)
Theorem calculate_emi_payload (principal interestRate : float) (tenure : Z)
    (calculation_method : string) (c : context) :
  (calculate_emi principal interestRate tenure calculation_method c).2 =
    [ mk_request (ctx_BASE_URL c +:+ "/calculate-emi")
        {[ "principal" := PFloat principal;
           "annual_rate" := PFloat interestRate;
           "tenure_months" := PInt tenure;
           "calculation_method" := PStr calculation_method ]}
        10 ] ∧
  (∀ req, req ∈ (calculate_emi principal interestRate tenure
                   calculation_method c).2 →
     dom (req_json req) =
       ({[ "principal"; "annual_rate"; "tenure_months";
           "calculation_method" ]} : gset string)) ∧
  call_tool (CalculateEmi principal interestRate tenure None) =
    calculate_emi principal interestRate tenure "reducing".
Proof.
  unfold calculate_emi. rewrite _post_log. split; [done|]. split; [|done].
  intros req ->%list_elem_of_singleton. simpl.
  rewrite !dom_insert_L, dom_singleton_L. set_solver.
Qed.

(** C4: [compare_loans] on the single scenario
    [{"principal": 100000, "interestRate": 9.5, "tenure": 12}], with the
    method left out, sends the body
    [{"scenarios": [{"name": null, "principal": 100000, "annual_rate": 9.5,
    "tenure_months": 12, "calculation_method": "reducing"}]}]. *)
Theorem compare_loans_example (c : context) :
  (call_tool
     (CompareLoans
        [ {[ "principal" := PInt 100000;
             "interestRate" := PFloat 9.5;
             "tenure" := PInt 12 ]} ]
        None) c).2 =
    [ mk_request (ctx_BASE_URL c +:+ "/compare-loans")
        {[ "scenarios" :=
             PList [ PDict {[ "name" := PNone;
                              "principal" := PInt 100000;
                              "annual_rate" := PFloat 9.5;
                              "tenure_months" := PInt 12;
                              "calculation_method" := PStr "reducing" ]} ] ]}
        10 ].
Proof.
  cbn [call_tool]. rewrite compare_loans_run.
  change (for_scenarios _ _ _) with
    (Returned [ PDict {[ "name" := PNone;
                         "principal" := PInt 100000;
                         "annual_rate" := PFloat 9.5;
                         "tenure_months" := PInt 12;
                         "calculation_method" := PStr "reducing" ]} ]).
  apply _post_log.
Qed.

(** C5: when some scenario lacks one of [principal], [interestRate],
    [tenure], [compare_loans] raises a [KeyError] for such a key, and the
    log of requests is empty: nothing was sent, and the error is not turned
    into a [backend_error] result. *)
Theorem compare_loans_missing_key (scenarios : list pydict)
    (calculation_method : string) (c : context) :
  (∃ s k, s ∈ scenarios ∧ k ∈ required_keys ∧ s !! k = None) →
  ∃ k, k ∈ required_keys ∧
       compare_loans scenarios calculation_method c = (Raised (KeyError k), []).
Proof.
  intros Hmiss. rewrite compare_loans_run.
  destruct (for_scenarios_missing scenarios calculation_method [] Hmiss)
    as (s & k & _ & Hk & _ & ->).
  by exists k.
Qed.

Lemma compare_loans_missing_key_witness :
  ∃ k, k ∈ required_keys ∧
    compare_loans
      [ {[ "principal" := PInt 100000; "interestRate" := PFloat 9.5;
           "tenure" := PInt 12 ]};
        {[ "name" := PStr "B"; "interestRate" := PFloat 8.0;
           "tenure" := PInt 24 ]} ]
      "reducing"
      (mk_context "http://localhost:8000/api"
         (λ _, Raised (RequestException ConnectionError "unreachable")))
    = (Raised (KeyError k), []).
Proof.
  apply compare_loans_missing_key.
  eexists _, "principal". split; [|split].
  - apply elem_of_cons; right. apply elem_of_cons; left. reflexivity.
  - apply elem_of_cons; left. reflexivity.
  - reflexivity.
Defined.

(** C9: from the same inputs [calculate_schedule] and [calculate_emi] build
    the same payload; the one request each issues differs only in the route,
    [/amortization-schedule] against [/calculate-emi]. *)
Theorem calculate_schedule_same_payload (principal interestRate : float)
    (tenure : Z) (calculation_method : string) (c : context) :
  ∃ payload : pydict,
    calculate_emi principal interestRate tenure calculation_method =
      _post "/calculate-emi" payload ∧
    calculate_schedule principal interestRate tenure calculation_method =
      _post "/amortization-schedule" payload ∧
    (calculate_emi principal interestRate tenure calculation_method c).2 =
      [ mk_request (ctx_BASE_URL c +:+ "/calculate-emi") payload 10 ] ∧
    (calculate_schedule principal interestRate tenure calculation_method c).2 =
      [ mk_request (ctx_BASE_URL c +:+ "/amortization-schedule") payload 10 ].
Proof.
  eexists. split; [reflexivity|]. split; [reflexivity|].
  unfold calculate_emi, calculate_schedule. by rewrite !_post_log.
Qed.

(** C10: when every scenario has [principal], [interestRate] and [tenure],
    [compare_loans] sends one request whose [scenarios] list has the length
    and the order of the input: its i-th element is made from the i-th
    input scenario, has exactly the keys [name], [principal], [annual_rate],
    [tenure_months], [calculation_method] (so other input keys are dropped),
    and carries [null] for an absent name.  The empty list is sent as
    [{"scenarios": []}]. *)
Theorem compare_loans_payload_shape (scenarios : list pydict)
    (calculation_method : string) (c : context) :
  ((∀ s k, s ∈ scenarios → k ∈ required_keys → is_Some (s !! k)) →
   ∃ out : list pydict,
     (compare_loans scenarios calculation_method c).2 =
       [ mk_request (ctx_BASE_URL c +:+ "/compare-loans")
           {[ "scenarios" := PList (PDict <$> out) ]} 10 ] ∧
     length out = length scenarios ∧
     ∀ i s, scenarios !! i = Some s →
       ∃ o : pydict,
         out !! i = Some o ∧
         dom o = ({[ "name"; "principal"; "annual_rate"; "tenure_months";
                     "calculation_method" ]} : gset string) ∧
         o !! "name" = Some (dict_get s "name" PNone) ∧
         (s !! "name" = None → o !! "name" = Some PNone) ∧
         o !! "principal" = s !! "principal" ∧
         o !! "annual_rate" = s !! "interestRate" ∧
         o !! "tenure_months" = s !! "tenure" ∧
         o !! "calculation_method" =
           Some (dict_get s "calculation_method" (PStr calculation_method))) ∧
  (compare_loans [] calculation_method c).2 =
    [ mk_request (ctx_BASE_URL c +:+ "/compare-loans")
        {[ "scenarios" := PList [] ]} 10 ].
Proof.
  split; [|by rewrite compare_loans_run; apply _post_log].
  intros Hreq.
  destruct (for_scenarios_returns scenarios calculation_method [] Hreq)
    as (out & Hrun & Hall).
  exists out. split; [|split].
  - rewrite compare_loans_run, Hrun. apply _post_log.
  - symmetry. by eapply Forall2_length.
  - intros i s Hi.
    destruct (Forall2_lookup_l _ _ _ _ _ Hall Hi) as (o & Ho & Hfmt).
    exists o. split; [done|].
    destruct (format_scenario_returns s calculation_method)
      as (p & r & t & Hp & Hr & Ht & Hs).
    { intros k Hk. eapply Hreq; [|done]. by eapply list_elem_of_lookup_2. }
    rewrite Hs in Hfmt. injection Hfmt as <-.
    rewrite Hp, Hr, Ht.
    split; [rewrite !dom_insert_L, dom_singleton_L; set_solver|].
    split; [done|].
    split; [intros Hname; unfold dict_get; by rewrite Hname|].
    done.
Qed.

Lemma compare_loans_payload_shape_witness :
  ∃ out : list pydict,
    (compare_loans
       [ {[ "name" := PStr "A"; "principal" := PInt 100000;
            "interestRate" := PFloat 9.5; "tenure" := PInt 12;
            "lender" := PStr "bank" ]};
         {[ "principal" := PInt 250000; "interestRate" := PFloat 8.0;
            "tenure" := PInt 24; "calculation_method" := PStr "flat" ]} ]
       "reducing"
       (mk_context "http://localhost:8000/api"
          (λ _, Raised (RequestException Timeout "timed out")))).2 =
      [ mk_request ("http://localhost:8000/api" +:+ "/compare-loans")
          {[ "scenarios" := PList (PDict <$> out) ]} 10 ] ∧
    length out = 2.
Proof.
  destruct (compare_loans_payload_shape
    [ {[ "name" := PStr "A"; "principal" := PInt 100000;
         "interestRate" := PFloat 9.5; "tenure" := PInt 12;
         "lender" := PStr "bank" ]};
      {[ "principal" := PInt 250000; "interestRate" := PFloat 8.0;
         "tenure" := PInt 24; "calculation_method" := PStr "flat" ]} ]
    "reducing"
    (mk_context "http://localhost:8000/api"
       (λ _, Raised (RequestException Timeout "timed out"))))
    as [Hshape _].
  destruct Hshape as (out & Hlog & Hlen & _).
  - intros s k Hs Hk.
    apply elem_of_cons in Hs as [->|Hs];
      [|apply elem_of_cons in Hs as [->|Hs]; [|by apply elem_of_nil in Hs]];
      (apply elem_of_cons in Hk as [->|Hk];
        [|apply elem_of_cons in Hk as [->|Hk];
          [|apply elem_of_cons in Hk as [->|Hk];
            [|by apply elem_of_nil in Hk]]]);
      vm_compute; eauto.
  - exists out. split; [exact Hlog | exact Hlen].
Defined.

(** Independent of the context: a request is in the log of a tool call
    exactly when its payload could be built, and then the call is [_post]. *)
Lemma call_tool_sent (tc : tool_call) (c : context) (req : request) :
  (call_tool tc c).2 = [req] →
  ∃ path, path ∈ routes ∧
    req = mk_request (ctx_BASE_URL c +:+ path) (req_json req) 10 ∧
    call_tool tc c = _post path (req_json req) c.
Proof.
  intros Hlog.
  destruct (call_tool_cases tc) as [(k & Hraise)|(path & payload & Hpath & Hpost)].
  - by rewrite Hraise in Hlog.
  - rewrite Hpost, _post_log in Hlog. injection Hlog as <-.
    exists path. by rewrite Hpost.
Qed.

(** ** The relay on success and on failure *)

(** C2: when the backend answers the POST with a 2xx status and a JSON body
    that parses to [v], [_post] returns [v] itself, and so does every tool
    whose request was answered that way. *)
Theorem success_body_unchanged (c : context) (r : response) (v : pyval) :
  (200 ≤ status_code r < 300)%Z →
  response_json r = Returned v →
  (∀ path payload,
     ctx_post c (mk_request (ctx_BASE_URL c +:+ path) payload 10) = Returned r →
     _post path payload c =
       (Returned v, [mk_request (ctx_BASE_URL c +:+ path) payload 10])) ∧
  (∀ tc req,
     (call_tool tc c).2 = [req] →
     ctx_post c req = Returned r →
     call_tool tc c = (Returned v, [req])).
Proof.
  intros Hst Hjson.
  assert (Hpost : ∀ path payload,
    ctx_post c (mk_request (ctx_BASE_URL c +:+ path) payload 10) = Returned r →
    _post path payload c =
      (Returned v, [mk_request (ctx_BASE_URL c +:+ path) payload 10])).
  { intros path payload Hans. rewrite _post_run. simpl. rewrite Hans. simpl.
    rewrite decide_True by (apply http_error_msg_empty; lia).
    by rewrite Hjson. }
  split; [exact Hpost|].
  intros tc req Hlog Hans.
  destruct (call_tool_sent tc c req Hlog) as (path & _ & Hreq & ->).
  rewrite Hreq in Hans. rewrite (Hpost path (req_json req) Hans).
  by rewrite <- Hreq.
Qed.

Lemma success_body_unchanged_witness :
  (call_tool (CalculateEmi 100000 9.5 12 None) emi_backend).1 =
    Returned (PDict {[ "emi" := PFloat 8792.5 ]}).
Proof.
  pose proof (success_body_unchanged emi_backend
    (mk_response 200 "OK" "http://localhost:8000/api/calculate-emi"
       (Returned (PDict {[ "emi" := PFloat 8792.5 ]})))
    (PDict {[ "emi" := PFloat 8792.5 ]})) as H.
  destruct H as [_ Htool]; [simpl; lia | reflexivity |].
  rewrite (Htool (CalculateEmi 100000 9.5 12 None)
    (mk_request "http://localhost:8000/api/calculate-emi"
       {[ "principal" := PFloat 100000; "annual_rate" := PFloat 9.5;
          "tenure_months" := PInt 12;
          "calculation_method" := PStr "reducing" ]} 10));
    reflexivity.
Defined.




(** ** Configuration *)

Lemma BASE_URL_lookup (dotenv environ : gmap string string) :
  BASE_URL dotenv environ =
  default "http://localhost:8000/api"
    ((environ ∪ dotenv) !! "EMI_API_BASE_URL").
Proof.
  unfold BASE_URL, getenv, load_dotenv.
  by destruct ((environ ∪ dotenv) !! "EMI_API_BASE_URL").
Qed.

(** C6 (amended): [BASE_URL] is the value of [EMI_API_BASE_URL] in the
    process environment when the variable is set there -- whatever the
    value, the empty string included --, else its value in the [.env] file,
    and ["http://localhost:8000/api"] only when it is set in neither. *)
Theorem BASE_URL_from_environment (dotenv environ : gmap string string) :
  BASE_URL dotenv environ =
  match environ !! "EMI_API_BASE_URL" with
  | Some v => v
  | None =>
      match dotenv !! "EMI_API_BASE_URL" with
      | Some v => v
      | None => "http://localhost:8000/api"
      end
  end.
Proof.
  rewrite BASE_URL_lookup.
  destruct (environ !! "EMI_API_BASE_URL") as [v|] eqn:Henv.
  - by rewrite (lookup_union_Some_l _ _ _ _ Henv).
  - rewrite lookup_union_r by done.
    by destruct (dotenv !! "EMI_API_BASE_URL").
Qed.

(** C6 as stated fails: with [EMI_API_BASE_URL] set to the empty string the
    base URL is the empty string, not the default. *)
Lemma BASE_URL_empty_not_default :
  BASE_URL ∅ {[ "EMI_API_BASE_URL" := "" ]} = "" ∧
  BASE_URL ∅ {[ "EMI_API_BASE_URL" := "" ]} ≠ "http://localhost:8000/api".
Proof. split; [reflexivity | discriminate]. Qed.

(** C7: [_post] issues one request, to the concatenation of the base URL
    and the path, with the payload as JSON body and a timeout of 10; in the
    running server every request of every tool goes to the base URL read at
    start-up followed by one of the four routes, so a server started with
    [EMI_API_BASE_URL] set to [u] sends every request to [u] followed by a
    route. *)
Theorem post_url_and_timeout :
  (∀ path payload c,
     (_post path payload c).2 =
       [ mk_request (ctx_BASE_URL c +:+ path) payload 10 ]) ∧
  (∀ dotenv environ post tc,
     Forall (λ req, ∃ path, path ∈ routes ∧
                      req_url req = BASE_URL dotenv environ +:+ path ∧
                      req_timeout req = 10%Z)
       (call_tool tc (server dotenv environ post)).2) ∧
  (∀ u dotenv environ post tc,
     Forall (λ req, ∃ path, path ∈ routes ∧ req_url req = u +:+ path)
       (call_tool tc
          (server dotenv (<[ "EMI_API_BASE_URL" := u ]> environ) post)).2).
Proof.
  assert (Hall : ∀ tc c,
    Forall (λ req, ∃ path, path ∈ routes ∧
                     req_url req = ctx_BASE_URL c +:+ path ∧
                     req_timeout req = 10%Z)
      (call_tool tc c).2).
  { intros tc c.
    destruct (call_tool_cases tc)
      as [(k & Hraise)|(path & payload & Hpath & Hpost)].
    - rewrite Hraise. constructor.
    - rewrite Hpost, _post_log. repeat constructor. by exists path. }
  split; [exact _post_log|]. split.
  - intros dotenv environ post tc. apply (Hall tc (server dotenv environ post)).
  - intros u dotenv environ post tc.
    eapply Forall_impl; [apply Hall|].
    intros req (path & Hpath & Hurl & _). exists path. split; [done|].
    rewrite Hurl. simpl.
    rewrite BASE_URL_lookup.
    by rewrite (lookup_union_Some_l _ _ _ u (lookup_insert_eq _ _ _)).
Qed.

(** C8: the payload of a tool call is a function of the call's arguments
    alone: run against any two contexts -- any base URL, any behaviour of
    the backend --, the same call puts the same bodies in its requests. *)
Theorem payload_deterministic (tc : tool_call) (c1 c2 : context) :
  req_json <$> (call_tool tc c1).2 = req_json <$> (call_tool tc c2).2.
Proof.
  destruct (call_tool_cases tc)
    as [(k & Hraise)|(path & payload & Hpath & Hpost)].
  - by rewrite !Hraise.
  - by rewrite !Hpost, !_post_log.
Qed.

(** * Further properties of the relay and the tools *)

(** ** Requests issued *)

(** X1: whatever the backend does, a tool call issues at most one request --
    a failed request is not repeated --, and the three tools with scalar
    arguments issue exactly one. *)
Theorem tool_call_sends_at_most_once (tc : tool_call) (c : context) :
  length (call_tool tc c).2 ≤ 1 ∧
  ((∀ ss m, tc ≠ CompareLoans ss m) → length (call_tool tc c).2 = 1).
Proof.
  split.
  - destruct (call_tool_cases tc)
      as [(k & Hraise)|(path & payload & _ & Hpost)].
    + rewrite Hraise. simpl. lia.
    + by rewrite Hpost, _post_log.
  - destruct tc as [p r t m|p r t m|ss m|p r t a f s m]; simpl; intros Hne;
      [ | |by destruct (Hne ss m)| ];
      unfold calculate_emi, calculate_schedule, calculate_with_prepayment;
      by rewrite _post_log.
Qed.

Lemma tool_call_sends_at_most_once_witness :
  length (call_tool (CalculateSchedule 100000 9.5 12 None)
            failing_backend).2 = 1.
Proof.
  apply (tool_call_sends_at_most_once
           (CalculateSchedule 100000 9.5 12 None) failing_backend).
  intros ss m. discriminate.
Defined.

(** X2: [compare_loans] issues its request exactly when every scenario has the
    keys [principal], [interestRate] and [tenure]; the answer of the backend
    has no part in that. *)
Theorem compare_loans_sends_iff (scenarios : list pydict)
    (calculation_method : string) (c : context) :
  length (compare_loans scenarios calculation_method c).2 = 1 ↔
  ∀ s k, s ∈ scenarios → k ∈ required_keys → is_Some (s !! k).
Proof.
  split.
  - intros Hlen s k Hs Hk.
    destruct (s !! k) as [v|] eqn:Hlook; [by exists v|].
    destruct (for_scenarios_missing scenarios calculation_method [])
      as (s' & k' & _ & _ & _ & Hraise); [by exists s, k|].
    by rewrite compare_loans_run, Hraise in Hlen.
  - intros Hreq.
    destruct (for_scenarios_returns scenarios calculation_method [] Hreq)
      as (out & Hrun & _).
    by rewrite compare_loans_run, Hrun, _post_log.
Qed.

(** ** What a tool call can raise *)

(** X3: as long as the requests library raises request exceptions only, a tool
    call raises in one case alone: [compare_loans] on a scenario that lacks
    a subscripted key; the exception is the [KeyError] of that key and
    nothing has been sent.  Every other call returns a value. *)
Theorem tool_call_raises_only_key_error (tc : tool_call) (c : context)
    (e : exception) :
  raises_request_exceptions_only c →
  (call_tool tc c).1 = Raised e →
  ∃ ss m s k,
    tc = CompareLoans ss m ∧ s ∈ ss ∧ k ∈ required_keys ∧ s !! k = None ∧
    e = KeyError k ∧ (call_tool tc c).2 = [].
Proof.
  intros Hlib Hraise.
  assert (Hpost : ∀ path payload, (_post path payload c).1 ≠ Raised e).
  { intros path payload. rewrite _post_run. simpl.
    specialize (Hlib (mk_request (ctx_BASE_URL c +:+ path) payload 10)).
    destruct (ctx_post c _) as [r|[cls msg|key]]; simpl; [|done..].
    destruct (decide (http_error_msg r = "")); [|done].
    by destruct (response_json r) as [v|[cls msg|key]]. }
  destruct tc as [p r t m|p r t m|ss m|p r t a f s m]; simpl in Hraise;
    try (by apply Hpost in Hraise).
  rewrite compare_loans_run in Hraise. simpl. rewrite compare_loans_run.
  destruct (for_scenarios ss (default "reducing" m) []) as [l|e'] eqn:Hrun.
  - by apply Hpost in Hraise.
  - simpl in Hraise. injection Hraise as ->.
    apply for_scenarios_raises in Hrun as (s & k & Hs & Hk & Hnone & ->).
    by exists ss, m, s, k.
Qed.

Lemma tool_call_raises_only_key_error_witness :
  ∃ ss m s k,
    CompareLoans [ {[ "principal" := PInt 100000; "tenure" := PInt 12 ]} ]
      None = CompareLoans ss m ∧
    s ∈ ss ∧ k ∈ required_keys ∧ s !! k = None ∧
    KeyError "interestRate" = KeyError k ∧
    (call_tool
       (CompareLoans [ {[ "principal" := PInt 100000; "tenure" := PInt 12 ]} ]
          None) failing_backend).2 = [].
Proof.
  apply (tool_call_raises_only_key_error _ failing_backend).
  - intros req. exact I.
  - reflexivity.
Defined.

(** X4: a response that [raise_for_status] lets through but whose body is not
    JSON is a failure like the others: the exception of [Response.json] is
    caught and the tool returns the [backend_error] dictionary with its
    text and the payload sent. *)
Theorem unparseable_body_is_backend_error (tc : tool_call) (c : context)
    (req : request) (r : response) (cls : request_exception_class)
    (msg : string) :
  (call_tool tc c).2 = [req] →
  ctx_post c req = Returned r →
  ¬ (400 ≤ status_code r < 600)%Z →
  response_json r = Raised (RequestException cls msg) →
  call_tool tc c = (Returned (backend_error msg (req_json req)), [req]).
Proof.
  intros Hlog Hans Hst Hjson.
  destruct (call_tool_sent tc c req Hlog) as (path & _ & Hreq & ->).
  rewrite _post_run. simpl. rewrite <- Hreq, Hans. simpl.
  rewrite decide_True by (by apply http_error_msg_empty).
  by rewrite Hjson.
Qed.

Lemma unparseable_body_is_backend_error_witness :
  call_tool (CalculateEmi 100000 9.5 12 None) html_backend =
    (Returned
       (backend_error "Expecting value: line 1 column 1 (char 0)"
          {[ "principal" := PFloat 100000; "annual_rate" := PFloat 9.5;
             "tenure_months" := PInt 12;
             "calculation_method" := PStr "reducing" ]}),
     [ mk_request "http://localhost:8000/api/calculate-emi"
         {[ "principal" := PFloat 100000; "annual_rate" := PFloat 9.5;
            "tenure_months" := PInt 12;
            "calculation_method" := PStr "reducing" ]} 10 ]).
Proof.
  rewrite (unparseable_body_is_backend_error
           (CalculateEmi 100000 9.5 12 None) html_backend
           (mk_request "http://localhost:8000/api/calculate-emi"
              {[ "principal" := PFloat 100000; "annual_rate" := PFloat 9.5;
                 "tenure_months" := PInt 12;
                 "calculation_method" := PStr "reducing" ]} 10)
           (mk_response 200 "OK" "http://localhost:8000/api/calculate-emi"
              (Raised (RequestException JSONDecodeError
                         "Expecting value: line 1 column 1 (char 0)")))
           JSONDecodeError "Expecting value: line 1 column 1 (char 0)").
  - reflexivity.
  - reflexivity.
  - reflexivity.
  - simpl. lia.
  - reflexivity.
Defined.

(** ** The payload of [calculate_with_prepayment] *)

(** X5: [calculate_with_prepayment] issues one request, to [BASE_URL] followed
    by [/calculate-with-prepayment]; its body is the body [calculate_emi]
    builds from the same loan arguments together with the three prepayment
    fields, seven keys in all. *)
Theorem calculate_with_prepayment_payload (principal interestRate : float)
    (tenure : Z) (prepayment_amount : float) (prepayment_frequency : string)
    (prepayment_start_month : Z) (calculation_method : string)
    (c : context) :
  ∃ emi_payload : pydict,
    (calculate_emi principal interestRate tenure calculation_method c).2 =
      [ mk_request (ctx_BASE_URL c +:+ "/calculate-emi") emi_payload 10 ] ∧
    (calculate_with_prepayment principal interestRate tenure
       prepayment_amount prepayment_frequency prepayment_start_month
       calculation_method c).2 =
      [ mk_request (ctx_BASE_URL c +:+ "/calculate-with-prepayment")
          (emi_payload ∪
           {[ "prepayment_amount" := PFloat prepayment_amount;
              "prepayment_frequency" := PStr prepayment_frequency;
              "prepayment_start_month" := PInt prepayment_start_month ]})
          10 ] ∧
    dom (emi_payload ∪
         ({[ "prepayment_amount" := PFloat prepayment_amount;
             "prepayment_frequency" := PStr prepayment_frequency;
             "prepayment_start_month" := PInt prepayment_start_month ]}
          : pydict)) =
      ({[ "principal"; "annual_rate"; "tenure_months"; "prepayment_amount";
          "prepayment_frequency"; "prepayment_start_month";
          "calculation_method" ]} : gset string).
Proof.
  eexists. unfold calculate_emi, calculate_with_prepayment.
  rewrite !_post_log. split; [reflexivity|]. split.
  - reflexivity.
  - rewrite dom_union_L, !dom_insert_L, !dom_singleton_L. set_solver.
Qed.

(** ** More on the loop of [compare_loans] *)

Lemma format_scenario_first_missing (s : pydict) (cm k : string) :
  first_missing_key s = Some k → format_scenario s cm = Raised (KeyError k).
Proof.
  unfold first_missing_key, required_keys, format_scenario, getitem.
  cbn [list_find].
  destruct (s !! "principal") eqn:Hp; simpl; [|by intros [= <-]].
  destruct (s !! "interestRate") eqn:Hr; simpl; [|by intros [= <-]].
  destruct (s !! "tenure") eqn:Ht; simpl; [|by intros [= <-]].
  discriminate.
Qed.

Lemma for_scenarios_acc (ss : list pydict) (cm : string) (acc : list pyval) :
  for_scenarios ss cm acc =
  match for_scenarios ss cm [] with
  | Returned l => Returned (acc ++ l)
  | Raised e => Raised e
  end.
Proof.
  revert acc. induction ss as [|s ss IH]; intros acc; simpl.
  - by rewrite app_nil_r.
  - destruct (format_scenario s cm) as [d|e]; simpl; [|done].
    rewrite (IH (acc ++ [PDict d])), (IH [PDict d]).
    destruct (for_scenarios ss cm []) as [l|e]; [|done].
    by rewrite <- app_assoc.
Qed.

Lemma for_scenarios_app (ss1 ss2 : list pydict) (cm : string)
    (acc : list pyval) :
  for_scenarios (ss1 ++ ss2) cm acc =
  match for_scenarios ss1 cm acc with
  | Returned l => for_scenarios ss2 cm l
  | Raised e => Raised e
  end.
Proof.
  revert acc. induction ss1 as [|s ss1 IH]; intros acc; simpl; [done|].
  destruct (format_scenario s cm) as [d|e]; simpl; [apply IH | done].
Qed.

Lemma compare_loans_log_inv (ss : list pydict) (cm : string) (c : context)
    (l : list pyval) :
  (compare_loans ss cm c).2 =
    [ mk_request (ctx_BASE_URL c +:+ "/compare-loans")
        {[ "scenarios" := PList l ]} 10 ] →
  for_scenarios ss cm [] = Returned l.
Proof.
  rewrite compare_loans_run.
  destruct (for_scenarios ss cm []) as [l'|e]; [|done].
  rewrite _post_log. intros Hlog.
  assert (Hmap : ({[ "scenarios" := PList l' ]} : pydict) =
                 {[ "scenarios" := PList l ]}) by congruence.
  apply (f_equal (λ m : pydict, m !! "scenarios")) in Hmap.
  rewrite !lookup_singleton_eq in Hmap. congruence.
Qed.

(** X6: when a scenario lacks a subscripted key and all scenarios before it are
    complete, [compare_loans] raises the [KeyError] of the first key that
    scenario lacks, in the order [principal], [interestRate], [tenure];
    what comes after that scenario is not looked at. *)
Theorem compare_loans_first_missing_key (before after : list pydict)
    (s : pydict) (k calculation_method : string) (c : context) :
  (∀ s' k', s' ∈ before → k' ∈ required_keys → is_Some (s' !! k')) →
  first_missing_key s = Some k →
  compare_loans (before ++ s :: after) calculation_method c =
    (Raised (KeyError k), []).
Proof.
  intros Hbefore Hk.
  rewrite compare_loans_run, for_scenarios_app.
  destruct (for_scenarios_returns before calculation_method [] Hbefore)
    as (out & -> & _).
  simpl. by rewrite (format_scenario_first_missing s calculation_method k Hk).
Qed.

Lemma compare_loans_first_missing_key_witness :
  compare_loans
    ([ {[ "principal" := PInt 100000; "interestRate" := PFloat 9.5;
          "tenure" := PInt 12 ]} ]
     ++ {[ "principal" := PInt 5000 ]}
     :: [ (∅ : pydict) ])
    "reducing" emi_backend
  = (Raised (KeyError "interestRate"), []).
Proof.
  apply compare_loans_first_missing_key.
  - intros s' k' ->%list_elem_of_singleton Hk'.
    repeat (apply elem_of_cons in Hk' as [->|Hk']; [vm_compute; eauto|]).
    by apply elem_of_nil in Hk'.
  - reflexivity.
Defined.

(** X7: [compare_loans] depends on a scenario through the five keys it looks up
    only: two lists of scenarios that agree, position by position, on
    [name], [principal], [interestRate], [tenure] and [calculation_method]
    give the same result and the same request. *)
Theorem compare_loans_reads_five_keys (scenarios1 scenarios2 : list pydict)
    (calculation_method : string) (c : context) :
  Forall2 (λ s1 s2 : pydict, ∀ k, k ∈ read_keys → s1 !! k = s2 !! k)
    scenarios1 scenarios2 →
  compare_loans scenarios1 calculation_method c =
  compare_loans scenarios2 calculation_method c.
Proof.
  intros Hagree. rewrite !compare_loans_run.
  enough (Hloop : ∀ acc,
    for_scenarios scenarios1 calculation_method acc =
    for_scenarios scenarios2 calculation_method acc) by (by rewrite Hloop).
  induction Hagree as [|s1 s2 ss1 ss2 Hs _ IH]; intros acc; simpl; [done|].
  assert (Hfmt : format_scenario s1 calculation_method =
                 format_scenario s2 calculation_method).
  { unfold format_scenario, getitem, dict_get, read_keys in *.
    rewrite (Hs "name"), (Hs "principal"), (Hs "interestRate"),
      (Hs "tenure"), (Hs "calculation_method") by set_solver.
    done. }
  rewrite Hfmt.
  destruct (format_scenario s2 calculation_method); simpl; [apply IH | done].
Qed.

Lemma compare_loans_reads_five_keys_witness :
  compare_loans
    [ {[ "principal" := PInt 100000; "interestRate" := PFloat 9.5;
         "tenure" := PInt 12; "calculationMethod" := PStr "flat" ]} ]
    "reducing" emi_backend =
  compare_loans
    [ {[ "principal" := PInt 100000; "interestRate" := PFloat 9.5;
         "tenure" := PInt 12 ]} ]
    "reducing" emi_backend.
Proof.
  apply compare_loans_reads_five_keys.
  constructor; [|constructor].
  intros k Hk.
  repeat (apply elem_of_cons in Hk as [->|Hk]; [reflexivity|]).
  by apply elem_of_nil in Hk.
Defined.

(** X8: [compare_loans] commutes with concatenation: when it sends the list
    [l1] for one list of scenarios and [l2] for another, it sends [l1 ++ l2]
    for the two lists put one after the other. *)
Theorem compare_loans_app (scenarios1 scenarios2 : list pydict)
    (calculation_method : string) (c : context) (l1 l2 : list pyval) :
  (compare_loans scenarios1 calculation_method c).2 =
    [ mk_request (ctx_BASE_URL c +:+ "/compare-loans")
        {[ "scenarios" := PList l1 ]} 10 ] →
  (compare_loans scenarios2 calculation_method c).2 =
    [ mk_request (ctx_BASE_URL c +:+ "/compare-loans")
        {[ "scenarios" := PList l2 ]} 10 ] →
  (compare_loans (scenarios1 ++ scenarios2) calculation_method c).2 =
    [ mk_request (ctx_BASE_URL c +:+ "/compare-loans")
        {[ "scenarios" := PList (l1 ++ l2) ]} 10 ].
Proof.
  intros H1%compare_loans_log_inv H2%compare_loans_log_inv.
  rewrite compare_loans_run, for_scenarios_app, H1, for_scenarios_acc, H2.
  apply _post_log.
Qed.

Lemma compare_loans_app_witness :
  (compare_loans
     ([ {[ "name" := PStr "A"; "principal" := PInt 100000;
           "interestRate" := PFloat 9.5; "tenure" := PInt 12 ]} ]
      ++ [ {[ "principal" := PInt 250000; "interestRate" := PFloat 8.0;
              "tenure" := PInt 24 ]} ])
     "reducing" emi_backend).2 =
    [ mk_request (ctx_BASE_URL emi_backend +:+ "/compare-loans")
        {[ "scenarios" :=
             PList ([ PDict {[ "name" := PStr "A";
                               "principal" := PInt 100000;
                               "annual_rate" := PFloat 9.5;
                               "tenure_months" := PInt 12;
                               "calculation_method" := PStr "reducing" ]} ]
                    ++ [ PDict {[ "name" := PNone;
                                  "principal" := PInt 250000;
                                  "annual_rate" := PFloat 8.0;
                                  "tenure_months" := PInt 24;
                                  "calculation_method" :=
                                    PStr "reducing" ]} ]) ]} 10 ].
Proof.
  apply compare_loans_app; reflexivity.
Defined.

(** X9: the method given to the tool is a default and nothing more: when every
    scenario carries its own [calculation_method], the result and the
    request of [compare_loans] do not depend on it. *)
Theorem compare_loans_scenario_method_wins (scenarios : list pydict)
    (method1 method2 : string) (c : context) :
  (∀ s, s ∈ scenarios → is_Some (s !! "calculation_method")) →
  compare_loans scenarios method1 c = compare_loans scenarios method2 c.
Proof.
  intros Hown. rewrite !compare_loans_run.
  enough (Hloop : ∀ acc,
    for_scenarios scenarios method1 acc = for_scenarios scenarios method2 acc)
    by (by rewrite Hloop).
  induction scenarios as [|s ss IH]; intros acc; simpl; [done|].
  assert (Hfmt : format_scenario s method1 = format_scenario s method2).
  { destruct (Hown s) as [v Hv]; [by apply elem_of_cons; left|].
    unfold format_scenario, dict_get. by rewrite Hv. }
  rewrite Hfmt. destruct (format_scenario s method2); simpl; [|done].
  apply IH. intros s' Hs'. apply Hown. by apply elem_of_cons; right.
Qed.

Lemma compare_loans_scenario_method_wins_witness :
  compare_loans
    [ {[ "principal" := PInt 100000; "interestRate" := PFloat 9.5;
         "tenure" := PInt 12; "calculation_method" := PStr "flat" ]} ]
    "reducing" emi_backend =
  compare_loans
    [ {[ "principal" := PInt 100000; "interestRate" := PFloat 9.5;
         "tenure" := PInt 12; "calculation_method" := PStr "flat" ]} ]
    "simple" emi_backend.
Proof.
  apply compare_loans_scenario_method_wins.
  intros s ->%list_elem_of_singleton. vm_compute. eauto.
Defined.

(** X10: an element of the list [compare_loans] sends is the body [calculate_emi]
    sends for the same loan, with the [name] entry added: for a scenario
    with float [principal] and [interestRate], integer [tenure] and
    effective method [m], the two tools agree on the four loan fields. *)
Theorem compare_loans_element_extends_emi_payload (s : pydict)
    (p r : float) (t : Z) (calculation_method m : string) (c : context) :
  s !! "principal" = Some (PFloat p) →
  s !! "interestRate" = Some (PFloat r) →
  s !! "tenure" = Some (PInt t) →
  dict_get s "calculation_method" (PStr calculation_method) = PStr m →
  ∃ emi_payload : pydict,
    (calculate_emi p r t m c).2 =
      [ mk_request (ctx_BASE_URL c +:+ "/calculate-emi") emi_payload 10 ] ∧
    (compare_loans [s] calculation_method c).2 =
      [ mk_request (ctx_BASE_URL c +:+ "/compare-loans")
          {[ "scenarios" :=
               PList [ PDict (<[ "name" := dict_get s "name" PNone ]>
                                emi_payload) ] ]} 10 ].
Proof.
  intros Hp Hr Ht Hm. eexists.
  unfold calculate_emi. rewrite _post_log. split; [reflexivity|].
  rewrite compare_loans_run. simpl.
  unfold format_scenario, getitem. rewrite Hp, Hr, Ht, Hm. simpl.
  apply _post_log.
Qed.

Lemma compare_loans_element_extends_emi_payload_witness :
  ∃ emi_payload : pydict,
    (calculate_emi 100000 9.5 12 "flat" emi_backend).2 =
      [ mk_request (ctx_BASE_URL emi_backend +:+ "/calculate-emi")
          emi_payload 10 ] ∧
    (compare_loans
       [ {[ "name" := PStr "A"; "principal" := PFloat 100000;
            "interestRate" := PFloat 9.5; "tenure" := PInt 12;
            "calculation_method" := PStr "flat" ]} ]
       "reducing" emi_backend).2 =
      [ mk_request (ctx_BASE_URL emi_backend +:+ "/compare-loans")
          {[ "scenarios" :=
               PList [ PDict (<[ "name" := PStr "A" ]> emi_payload) ] ]}
          10 ].
Proof.
  destruct (compare_loans_element_extends_emi_payload
              {[ "name" := PStr "A"; "principal" := PFloat 100000;
                 "interestRate" := PFloat 9.5; "tenure" := PInt 12;
                 "calculation_method" := PStr "flat" ]}
              100000 9.5 12 "reducing" "flat" emi_backend)
    as (emi_payload & Hemi & Hcompare); [reflexivity..|].
  exists emi_payload. split; [exact Hemi | exact Hcompare].
Defined.

(** ** Routes *)

Lemma append_inj_l (s a b : string) : s +:+ a = s +:+ b → a = b.
Proof. induction s as [|ch s IH]; simpl; [done|]. intros [= H]. by apply IH. Qed.

Lemma call_tool_url (tc : tool_call) (c : context) (req : request) :
  (call_tool tc c).2 = [req] →
  req_url req =
    ctx_BASE_URL c +:+
    match tc with
    | CalculateEmi _ _ _ _ => "/calculate-emi"
    | CalculateSchedule _ _ _ _ => "/amortization-schedule"
    | CompareLoans _ _ => "/compare-loans"
    | CalculateWithPrepayment _ _ _ _ _ _ _ => "/calculate-with-prepayment"
    end.
Proof.
  destruct tc as [p r t m|p r t m|ss m|p r t a f s m]; simpl;
    [unfold calculate_emi|unfold calculate_schedule|
     rewrite compare_loans_run;
     destruct (for_scenarios ss _ []); [|done]|
     unfold calculate_with_prepayment];
    rewrite _post_log; by intros [= <-].
Qed.

(** X11: each tool has a route of its own: in one server, requests of two tool
    calls go to the same URL only if the two calls are of the same tool. *)
Theorem tools_have_distinct_urls (tc1 tc2 : tool_call) (c : context)
    (req1 req2 : request) :
  (call_tool tc1 c).2 = [req1] →
  (call_tool tc2 c).2 = [req2] →
  req_url req1 = req_url req2 →
  same_tool tc1 tc2 = true.
Proof.
  intros Hurl1%call_tool_url Hurl2%call_tool_url Heq.
  rewrite Hurl1, Hurl2 in Heq. apply append_inj_l in Heq.
  by destruct tc1, tc2.
Qed.

Lemma tools_have_distinct_urls_witness :
  same_tool (CalculateEmi 100000 9.5 12 None)
    (CalculateEmi 250000 8.0 24 (Some "flat")) = true.
Proof.
  apply (tools_have_distinct_urls
           (CalculateEmi 100000 9.5 12 None)
           (CalculateEmi 250000 8.0 24 (Some "flat"))
           emi_backend
           (mk_request "http://localhost:8000/api/calculate-emi"
              {[ "principal" := PFloat 100000; "annual_rate" := PFloat 9.5;
                 "tenure_months" := PInt 12;
                 "calculation_method" := PStr "reducing" ]} 10)
           (mk_request "http://localhost:8000/api/calculate-emi"
              {[ "principal" := PFloat 250000; "annual_rate" := PFloat 8.0;
                 "tenure_months" := PInt 24;
                 "calculation_method" := PStr "flat" ]} 10));
    reflexivity.
Defined.

(** ** Statuses that are not errors *)

(** X12: a response whose status is outside 400..599 -- a 2xx, but also a
    1xx or a 3xx that is not followed -- and whose body parses is a success
    for the relay: the tool returns the parsed body unchanged. *)
Theorem other_status_body_returned (tc : tool_call) (c : context)
    (req : request) (r : response) (v : pyval) :
  (call_tool tc c).2 = [req] →
  ctx_post c req = Returned r →
  ¬ (400 ≤ status_code r < 600)%Z →
  response_json r = Returned v →
  call_tool tc c = (Returned v, [req]).
Proof.
  intros Hlog Hans Hst Hjson.
  destruct (call_tool_sent tc c req Hlog) as (path & _ & Hreq & ->).
  rewrite _post_run. simpl. rewrite <- Hreq, Hans. simpl.
  rewrite decide_True by (by apply http_error_msg_empty).
  by rewrite Hjson.
Qed.

Lemma other_status_body_returned_witness :
  (call_tool (CalculateSchedule 100000 9.5 12 None)
     multiple_choices_backend).1 =
    Returned (PDict {[ "emi" := PFloat 8792.5 ]}).
Proof.
  rewrite (other_status_body_returned
             (CalculateSchedule 100000 9.5 12 None) multiple_choices_backend
             (mk_request "http://localhost:8000/api/amortization-schedule"
                {[ "principal" := PFloat 100000; "annual_rate" := PFloat 9.5;
                   "tenure_months" := PInt 12;
                   "calculation_method" := PStr "reducing" ]} 10)
             (mk_response 300 "Multiple Choices"
                "http://localhost:8000/api/amortization-schedule"
                (Returned (PDict {[ "emi" := PFloat 8792.5 ]})))
             (PDict {[ "emi" := PFloat 8792.5 ]})).
  - reflexivity.
  - reflexivity.
  - reflexivity.
  - simpl. lia.
  - reflexivity.
Defined.
